(** * Package [assert] of gotest.tools: dispatch of assertions and checks

    A shallow embedding of [assert/assert.go].  Go code that talks to a test
    context is written in a small monad [M]: a computation reads the
    environment (the collaborating packages and the source files on disk),
    threads the state captured by the caller's closures, emits the calls it
    makes on the test context as a trace of events, and ends by returning,
    by [runtime.Goexit] (what [FailNow] does) or by a panic. *)

From Stdlib Require Import String List ZArith Bool Lia.
Import ListNotations.

Set Implicit Arguments.

Declare Scope go_scope.
Delimit Scope go_scope with go.

(** ** Calls observed on the test context and on package [source] *)

Inductive Event : Type :=
| EvHelper                                (* ht.Helper() *)
| EvLog (message : string)                (* t.Log(message) *)
| EvFail                                  (* t.Fail() *)
| EvFailNow                               (* t.FailNow() *)
| EvSource (stackIndex argPos : Z).       (* source.FormattedCallExprArg(stackIndex, argPos) *)

Definition isHelper (e : Event) : bool :=
  match e with EvHelper => true | _ => false end.
Definition isLog (e : Event) : bool :=
  match e with EvLog _ => true | _ => false end.
Definition isFail (e : Event) : bool :=
  match e with EvFail => true | _ => false end.
Definition isFailNow (e : Event) : bool :=
  match e with EvFailNow => true | _ => false end.
Definition isSource (e : Event) : bool :=
  match e with EvSource _ _ => true | _ => false end.

(** Number of events of a trace that satisfy [p]. *)
Definition calls (p : Event -> bool) (tr : list Event) : nat :=
  length (filter p tr).

(** The events of a trace that are not [Helper] calls. *)
Definition withoutHelper (tr : list Event) : list Event :=
  filter (fun e => negb (isHelper e)) tr.

(** How a Go call ends. *)
Inductive Outcome (A : Type) : Type :=
| Returns (a : A)
| Goexit
| Panics (value : string).

Arguments Goexit {A}.
Arguments Panics {A} value.

(** A Go [error]: [None] is [nil], [Some s] an error whose [Error()] is [s]. *)
Definition error : Type := option string.

(** Modelled from the spec: [cmp.Result], declared in package [cmp], whose
    source is not available.  Spec 3: a tagged outcome, [Success] or
    [Failure(message)]. *)
Inductive cmp_Result : Type :=
| Success
| Failure (message : string).

Definition cmp_Result_Success (r : cmp_Result) : bool :=
  match r with Success => true | Failure _ => false end.

(** Modelled from the spec: the type [astExprListFilter] and its two values,
    declared in a file of package [assert] whose source is not available.
    Spec 3 (ArgumentFilterPolicy): a policy chosen per entry point, either all
    arguments of the comparison or all but the first. *)
Inductive astExprListFilter : Type :=
| filterExprArgsFromComparison
| filterExprExcludeFirst.

Definition failureMessage : string := "assertion failed: ".

Section Model.

(** The variables captured by the caller's closures. *)
Variable U : Type.

(** [cmp.Comparison], that is [func() cmp.Result]: a closure over [U]. *)
Definition cmp_Comparison : Type := U -> cmp_Result * U.

(** A value of type [interface{}], by its dynamic type: the four types that
    the type switch of [assert] names, and every other one. *)
Inductive iface : Type :=
| GoBool (b : bool)
| GoLegacyFunc (f : U -> (bool * string) * U)    (* func() (success bool, message string) *)
| GoComparison (f : cmp_Comparison)              (* cmp.Comparison *)
| GoFuncResult (f : U -> cmp_Result * U)         (* func() cmp.Result *)
| GoValue (typeName : string) (text : string).   (* any other type: its %T and %v *)

(** [type BoolOrComparison interface{}] *)
Definition BoolOrComparison : Type := iface.

(** What the code calls outside package [assert].
    - [fmtMessage] renders the extra message parts ([fmt.Sprintf] of package [format]);
    - [callExprArg stackIndex argPos] is what the source files on disk and the
      call stack make of [source.FormattedCallExprArg];
    - [cmpEqual], [cmpNilError] are the comparisons built by package [cmp]. *)
Record Env : Type := mkEnv {
  fmtMessage : list iface -> string;
  callExprArg : Z -> Z -> string * error;
  cmpEqual : iface -> iface -> cmp_Comparison;
  cmpNilError : error -> cmp_Comparison
}.

(** The result of running a computation. *)
Record Run (A : Type) : Type := mkRun {
  outcome : Outcome A;
  trace : list Event;
  final : U
}.

Definition M (A : Type) : Type := Env -> U -> Run A.

Definition ret {A : Type} (a : A) : M A :=
  fun _ u => mkRun (Returns a) [] u.

Definition bind {A B : Type} (m : M A) (k : A -> M B) : M B :=
  fun env u =>
    let r := m env u in
    match outcome r with
    | Returns a =>
        let r' := k a env (final r) in
        mkRun (outcome r') (trace r ++ trace r') (final r')
    | Goexit => mkRun Goexit (trace r) (final r)
    | Panics v => mkRun (Panics v) (trace r) (final r)
    end.

Definition emit (e : Event) : M unit :=
  fun _ u => mkRun (Returns tt) [e] u.

Definition goexit {A : Type} : M A :=
  fun _ u => mkRun Goexit [] u.

Definition panic {A : Type} (value : string) : M A :=
  fun _ u => mkRun (Panics value) [] u.

Definition ask : M Env :=
  fun env u => mkRun (Returns env) [] u.

(** Calling a closure [f()]: it runs on the captured state. *)
Definition call {A : Type} (f : U -> A * U) : M A :=
  fun _ u => mkRun (Returns (fst (f u))) [] (snd (f u)).

Notation "x <- m ;; k" := (bind m (fun x => k))
  (at level 61, m at next level, right associativity) : go_scope.
Notation "m ;; k" := (bind m (fun _ => k))
  (at level 61, right associativity) : go_scope.

Local Open Scope go_scope.

(** [type TestingT interface { FailNow(); Fail(); Log(args ...interface{}) }],
    with the outcome of the type assertion [t.(helperT)]: [Some] of the
    [Helper] method when the dynamic type of [t] has one.  Package [assert]
    only ever passes one string to [Log]. *)
Record TestingT : Type := mkTestingT {
  FailNow : M unit;
  Fail : M unit;
  Log : string -> M unit;
  helperT : option (M unit)
}.

(** A test context that records the calls made on it.  [FailNow] marks the
    test failed and leaves the goroutine, as spec 3 has it; [implementsHelper]
    tells whether the dynamic type has the method [Helper]. *)
Definition testingT (implementsHelper : bool) : TestingT :=
  mkTestingT
    (emit EvFailNow ;; goexit)
    (emit EvFail)
    (fun message => emit (EvLog message))
    (if implementsHelper then Some (emit EvHelper) else None).

(** [if ht, ok := t.(helperT); ok { ht.Helper() }] *)
Definition markHelper (t : TestingT) : M unit :=
  match helperT t with
  | Some Helper => Helper
  | None => ret tt
  end.

(** Modelled from the spec: [format.WithCustomMessage], of package
    [internal/format], whose source is not available.  Spec 4.1 (message merging): the extra
    parts are formatted and appended after the base message, separated by a
    single space; with no extra part the base message stands alone. *)
Definition format_WithCustomMessage (env : Env) (source : string)
    (msgAndArgs : list iface) : string :=
  match msgAndArgs with
  | [] => source
  | _ :: _ => ((source ++ " ") ++ fmtMessage env msgAndArgs)%string
  end.

(** Modelled from the spec: [source.FormattedCallExprArg], of package
    [internal/source], whose source is not available.  Spec 4.2: from a stack depth and an
    argument position it gives the text of that argument of the calling
    expression, or an error.  What it finds is a fact of the environment. *)
Definition source_FormattedCallExprArg (stackIndex argPos : Z)
  : M (string * error) :=
  env <- ask ;;
  emit (EvSource stackIndex argPos) ;;
  ret (callExprArg env stackIndex argPos).

(** Modelled from the spec: [cmp.Equal] and [cmp.NilError], of package
    [cmp], whose source is not available.  Spec 4.1: structured comparisons for equality and
    for an absent error; what they compute belongs to the environment. *)
Definition cmp_Equal (x y : iface) : M cmp_Comparison :=
  env <- ask ;; ret (cmpEqual env x y).

Definition cmp_NilError (err : error) : M cmp_Comparison :=
  env <- ask ;; ret (cmpNilError env err).

(** Modelled from the spec: [runComparison], declared in a file of package
    [assert] whose source is not available.  Spec 4.1, step 3: invoke the comparison
    once to obtain a Result; on Failure log "assertion failed: " + the
    result's message merged with the extra parts; the filter policy is only
    passed through.  Step 4: on success return true without logging. *)
Definition runComparison (t : TestingT) (exprFilter : astExprListFilter)
    (f : cmp_Comparison) (msgAndArgs : list iface) : M bool :=
  result <- call f ;;
  match result with
  | Success => ret true
  | Failure message =>
      env <- ask ;;
      Log t (format_WithCustomMessage env (failureMessage ++ message)%string msgAndArgs) ;;
      ret false
  end.

Definition runCompareFunc (t : TestingT) (f : U -> (bool * string) * U)
    (msgAndArgs : list iface) : M bool :=
  markHelper t ;;
  r <- call f ;;
  let (success, message) := r in
  if negb success then
    env <- ask ;;
    Log t (format_WithCustomMessage env (failureMessage ++ message)%string msgAndArgs) ;;
    ret false
  else ret true.

Definition logFailureFromBool (t : TestingT) (msgAndArgs : list iface) : M unit :=
  let stackIndex := 3%Z in
  let comparisonArgPos := 1%Z in
  r <- source_FormattedCallExprArg stackIndex comparisonArgPos ;;
  let (source, err) := r in
  match err with
  | Some e => Log t e
  | None => ret tt
  end ;;
  let msg := " is false"%string in
  env <- ask ;;
  Log t (format_WithCustomMessage env ((failureMessage ++ source) ++ msg)%string msgAndArgs).

(** The statements of [assert] after its type switch. *)
Definition afterSwitch (failer : M unit) (success : bool) : M bool :=
  if success then ret true
  else failer ;; ret false.

Definition assert (t : TestingT) (failer : M unit) (argsFilter : astExprListFilter)
    (comparison : BoolOrComparison) (msgAndArgs : list iface) : M bool :=
  markHelper t ;;
  match comparison with
  | GoBool check =>
      if check then ret true
      else logFailureFromBool t msgAndArgs ;; afterSwitch failer false
  | GoLegacyFunc check =>
      success <- runCompareFunc t check msgAndArgs ;;
      afterSwitch failer success
  | GoComparison check =>
      success <- runComparison t argsFilter check msgAndArgs ;;
      afterSwitch failer success
  | GoFuncResult check =>
      success <- runComparison t argsFilter check msgAndArgs ;;
      afterSwitch failer success
  | GoValue typeName _ =>
      panic ("comparison arg must be bool or Comparison, not " ++ typeName)%string
  end.

Definition Assert (t : TestingT) (comparison : BoolOrComparison)
    (msgAndArgs : list iface) : M unit :=
  markHelper t ;;
  assert t (FailNow t) filterExprArgsFromComparison comparison msgAndArgs ;;
  ret tt.

Definition Check (t : TestingT) (comparison : BoolOrComparison)
    (msgAndArgs : list iface) : M bool :=
  markHelper t ;;
  assert t (Fail t) filterExprArgsFromComparison comparison msgAndArgs.

Definition NilError (t : TestingT) (err : error) (msgAndArgs : list iface) : M unit :=
  markHelper t ;;
  c <- cmp_NilError err ;;
  assert t (FailNow t) filterExprExcludeFirst (GoComparison c) msgAndArgs ;;
  ret tt.

Definition Equal (t : TestingT) (x y : iface) (msgAndArgs : list iface) : M unit :=
  markHelper t ;;
  c <- cmp_Equal x y ;;
  assert t (FailNow t) filterExprExcludeFirst (GoComparison c) msgAndArgs ;;
  ret tt.

End Model.

Arguments testingT {U} implementsHelper.
Arguments GoBool {U} b.
Arguments GoValue {U} typeName text.

Notation "x <- m ;; k" := (bind m (fun x => k))
  (at level 61, m at next level, right associativity) : go_scope.
Notation "m ;; k" := (bind m (fun _ => k))
  (at level 61, right associativity) : go_scope.

(** ** Vocabulary of the properties *)

(** The dynamic type of the comparison is one that [assert] accepts. *)
Definition recognized {U : Type} (c : BoolOrComparison U) : bool :=
  match c with
  | GoValue _ _ => false
  | _ => true
  end.

(** The comparison, evaluated on the captured state [u], succeeds. *)
Definition succeeds {U : Type} (c : BoolOrComparison U) (u : U) : bool :=
  match c with
  | GoBool b => b
  | GoLegacyFunc f => fst (fst (f u))
  | GoComparison f => cmp_Result_Success (fst (f u))
  | GoFuncResult f => cmp_Result_Success (fst (f u))
  | GoValue _ _ => false
  end.

Definition fails {U : Type} (c : BoolOrComparison U) (u : U) : bool :=
  recognized c && negb (succeeds c u).

(** The captured state once the closure of the comparison has run once. *)
Definition calledOnce {U : Type} (c : BoolOrComparison U) (u : U) : U :=
  match c with
  | GoBool _ => u
  | GoLegacyFunc f => snd (f u)
  | GoComparison f => snd (f u)
  | GoFuncResult f => snd (f u)
  | GoValue _ _ => u
  end.

(** What one [markHelper] leaves in the trace of a recording context. *)
Definition helperCalls (implementsHelper : bool) : list Event :=
  if implementsHelper then [EvHelper] else [].

(** What [logFailureFromBool] logs for the error of the recovery, if any. *)
Definition recoveryErrorLog (err : error) : list Event :=
  match err with
  | Some e => [EvLog e]
  | None => []
  end.

(** A computation that comes back to its caller, whatever it does. *)
Definition comesBack {U : Type} (m : M U unit) : Prop :=
  forall env u, outcome (m env u) = Returns tt.

(** How a call ends once [failer] has been run for a failed comparison. *)
Definition afterFailer (A : Type) (o : Outcome A) : Outcome bool :=
  match o with
  | Returns _ => Returns false
  | Goexit => Goexit
  | Panics v => Panics v
  end.

(** The message that a failed comparison logs. *)
Definition failureText {U : Type} (env : Env U) (c : BoolOrComparison U) (u : U)
    (msgAndArgs : list (iface U)) : string :=
  match c with
  | GoBool _ =>
      format_WithCustomMessage env
        ((failureMessage ++ fst (callExprArg env 3 1)) ++ " is false") msgAndArgs
  | GoLegacyFunc f =>
      format_WithCustomMessage env (failureMessage ++ snd (fst (f u))) msgAndArgs
  | GoComparison f | GoFuncResult f =>
      match fst (f u) with
      | Failure message =>
          format_WithCustomMessage env (failureMessage ++ message) msgAndArgs
      | Success => EmptyString
      end
  | GoValue _ _ => EmptyString
  end.

(** The trace of [assert] on a failed comparison, up to that log. *)
Definition beforeFailureLog {U : Type} (b : bool) (env : Env U)
    (c : BoolOrComparison U) : list Event :=
  match c with
  | GoBool _ =>
      helperCalls b ++ EvSource 3 1 :: recoveryErrorLog (snd (callExprArg env 3 1))
  | GoLegacyFunc _ => helperCalls b ++ helperCalls b
  | _ => helperCalls b
  end.

(** ** Sample environments and closures *)

(** An environment over a call counter: the recovery finds [found], extra
    parts render as "context: 5", [cmp.Equal] fails and [cmp.NilError]
    follows its argument; each comparison counts its calls. *)
Definition sampleEnv (found : string * error) : Env nat :=
  mkEnv
    (fun _ => "context: 5"%string)
    (fun _ _ => found)
    (fun _ _ n => (Failure "1 (int) != 2 (int)", S n))
    (fun err n =>
       (match err with
        | None => Success
        | Some e => Failure ("error is not nil: " ++ e)%string
        end, S n)).

(** A legacy comparison that counts its calls. *)
Definition countingLegacy (success : bool) (message : string)
  : nat -> (bool * string) * nat :=
  fun n => ((success, message), S n).

(** A structured comparison that counts its calls. *)
Definition countingComparison (result : cmp_Result) : cmp_Comparison nat :=
  fun n => (result, S n).

(** ** Other test contexts *)

(** A recording context whose [FailNow] comes back to its caller, as a fake
    written to test the package does: it only takes note of the call. *)
Definition fakeT {U : Type} (implementsHelper : bool) : TestingT U :=
  mkTestingT
    (emit EvFailNow)
    (emit EvFail)
    (fun message => emit (EvLog message))
    (if implementsHelper then Some (emit EvHelper) else None).

(** A method that comes back and leaves the captured state as it was. *)
Definition returning {U : Type} (m : M U unit) : Prop :=
  forall env u, exists tr, m env u = mkRun (Returns tt) tr u.

(** A context all of whose methods are [returning]. *)
Definition wellBehaved {U : Type} (t : TestingT U) : Prop :=
  returning (FailNow t)
  /\ returning (Fail t)
  /\ (forall message, returning (Log t message))
  /\ (forall Helper, helperT t = Some Helper -> returning Helper).

(** [Fail] in the place of [FailNow]. *)
Definition swapEscalation (e : Event) : Event :=
  match e with
  | EvFailNow => EvFail
  | _ => e
  end.

(** How [Assert] ends, from how [Check] ends. *)
Definition asAssert (o : Outcome bool) : Outcome unit :=
  match o with
  | Returns true => Returns tt
  | Returns false => Goexit
  | Goexit => Goexit
  | Panics v => Panics v
  end.

(** ** Basic facts *)

Lemma calls_app (p : Event -> bool) (tr1 tr2 : list Event) :
  calls p (tr1 ++ tr2) = calls p tr1 + calls p tr2.
Proof.
  unfold calls. rewrite filter_app. apply length_app.
Qed.

Lemma calls_helperCalls (p : Event -> bool) (b : bool) :
  p EvHelper = false -> calls p (helperCalls b) = 0.
Proof.
  intros Hp. destruct b; unfold calls; simpl; [rewrite Hp|]; reflexivity.
Qed.

Lemma calls_only_helpers (p : Event -> bool) (tr : list Event) :
  forallb isHelper tr = true -> p EvHelper = false -> calls p tr = 0.
Proof.
  intros Hall Hp. unfold calls.
  induction tr as [|e tr IH]; simpl in *; [reflexivity|].
  apply andb_true_iff in Hall as [He Htr].
  destruct e; try discriminate. rewrite Hp. auto.
Qed.

Lemma string_length_append (s1 s2 : string) :
  String.length (s1 ++ s2) = String.length s1 + String.length s2.
Proof.
  induction s1 as [|c s1 IH]; simpl; [reflexivity | now rewrite IH].
Qed.

(** ** Runs of the methods and of the helpers *)

(** One step of a run: the fields of a run that is known. *)
Ltac go_step := cbn [outcome trace final fst snd].

Lemma markHelper_testingT (U : Type) (b : bool) (env : Env U) (u : U) :
  markHelper (testingT b) env u = mkRun (Returns tt) (helperCalls b) u.
Proof.
  destruct b; reflexivity.
Qed.

Lemma Log_testingT (U : Type) (b : bool) (message : string) (env : Env U) (u : U) :
  Log (testingT b) message env u = mkRun (Returns tt) [EvLog message] u.
Proof.
  reflexivity.
Qed.

Lemma Fail_testingT (U : Type) (b : bool) (env : Env U) (u : U) :
  Fail (testingT b) env u = mkRun (Returns tt) [EvFail] u.
Proof.
  reflexivity.
Qed.


Lemma logFailureFromBool_run (U : Type) (b : bool) (msgAndArgs : list (iface U))
    (env : Env U) (u : U) :
  logFailureFromBool (testingT b) msgAndArgs env u
    = mkRun (Returns tt)
        (EvSource 3 1 :: recoveryErrorLog (snd (callExprArg env 3 1))
           ++ [EvLog (format_WithCustomMessage env
                        ((failureMessage ++ fst (callExprArg env 3 1)) ++ " is false")
                        msgAndArgs)])
        u.
Proof.
  unfold logFailureFromBool, source_FormattedCallExprArg, bind, ask, emit, ret.
  go_step.
  destruct (callExprArg env 3 1) as [source [e|]]; reflexivity.
Qed.

Lemma runCompareFunc_run (U : Type) (b : bool) (f : U -> (bool * string) * U)
    (msgAndArgs : list (iface U)) (env : Env U) (u : U) :
  runCompareFunc (testingT b) f msgAndArgs env u
    = mkRun (Returns (fst (fst (f u))))
        (helperCalls b
           ++ if fst (fst (f u)) then []
              else [EvLog (format_WithCustomMessage env
                             (failureMessage ++ snd (fst (f u))) msgAndArgs)])
        (snd (f u)).
Proof.
  unfold runCompareFunc, bind, call, ask, ret.
  rewrite markHelper_testingT. go_step.
  destruct (f u) as [[[|] message] u']; reflexivity.
Qed.

Lemma runComparison_run (U : Type) (b : bool) (exprFilter : astExprListFilter)
    (f : cmp_Comparison U) (msgAndArgs : list (iface U)) (env : Env U) (u : U) :
  runComparison (testingT b) exprFilter f msgAndArgs env u
    = mkRun (Returns (cmp_Result_Success (fst (f u))))
        match fst (f u) with
        | Success => []
        | Failure message =>
            [EvLog (format_WithCustomMessage env (failureMessage ++ message) msgAndArgs)]
        end
        (snd (f u)).
Proof.
  unfold runComparison, bind, call, ask, ret. go_step.
  destruct (f u) as [[|message] u']; reflexivity.
Qed.

Lemma afterSwitch_run (U : Type) (failer : M U unit) (success : bool)
    (env : Env U) (u : U) :
  afterSwitch failer success env u
    = if success then mkRun (Returns true) [] u
      else mkRun (afterFailer (outcome (failer env u))) (trace (failer env u))
             (final (failer env u)).
Proof.
  destruct success; [reflexivity|].
  unfold afterSwitch, bind, ret.
  destruct (failer env u) as [[[]| |v] trf uf]; go_step;
    rewrite ?app_nil_r; reflexivity.
Qed.

(** Traces as lists nested to the right. *)
Ltac norm_trace :=
  repeat (rewrite <- app_assoc || rewrite <- app_comm_cons); cbn [app].

(** The run of [assert] from the runs of what it calls. *)
Ltac assert_run :=
  unfold assert, bind;
  rewrite markHelper_testingT; go_step;
  rewrite ?logFailureFromBool_run, ?runCompareFunc_run, ?runComparison_run;
  go_step;
  rewrite ?afterSwitch_run; go_step.

(** The run of an entry point from the run of [assert]. *)
Ltac entry_run :=
  unfold Assert, Check, bind;
  rewrite markHelper_testingT; go_step.

(** ** Comparisons that succeed *)

(** The run of [assert] on a comparison that succeeds: it returns true, the
    closure has run once, the failer has not, and the trace holds nothing but
    the [Helper] calls. *)
Lemma assert_on_success (U : Type) (b : bool) (failer : M U unit)
    (argsFilter : astExprListFilter) (c : BoolOrComparison U)
    (msgAndArgs : list (iface U)) (env : Env U) (u : U) :
  succeeds c u = true ->
  exists tr,
    assert (testingT b) failer argsFilter c msgAndArgs env u
      = mkRun (Returns true) tr (calledOnce c u)
    /\ forallb isHelper tr = true.
Proof.
  intros Hs.
  destruct c as [check | f | f | f | ty txt]; cbn in Hs; try discriminate.
  - subst check. exists (helperCalls b). split; destruct b; reflexivity.
  - exists (helperCalls b ++ helperCalls b). split; [|destruct b; reflexivity].
    assert_run. rewrite Hs. rewrite !app_nil_r. reflexivity.
  - exists (helperCalls b). split; [|destruct b; reflexivity].
    assert_run. destruct (fst (f u)); try discriminate.
    rewrite !app_nil_r. reflexivity.
  - exists (helperCalls b). split; [|destruct b; reflexivity].
    assert_run. destruct (fst (f u)); try discriminate.
    rewrite !app_nil_r. reflexivity.
Qed.

Lemma Check_on_success (U : Type) (b : bool) (c : BoolOrComparison U)
    (msgAndArgs : list (iface U)) (env : Env U) (u : U) :
  succeeds c u = true ->
  exists tr,
    Check (testingT b) c msgAndArgs env u = mkRun (Returns true) tr (calledOnce c u)
    /\ forallb isHelper tr = true.
Proof.
  intros Hs.
  destruct (@assert_on_success U b (Fail (testingT b)) filterExprArgsFromComparison
              c msgAndArgs env u Hs) as (tr & Hrun & Htr).
  exists (helperCalls b ++ tr). split.
  - entry_run. rewrite Hrun. reflexivity.
  - rewrite forallb_app, Htr. destruct b; reflexivity.
Qed.

Lemma Assert_on_success (U : Type) (b : bool) (c : BoolOrComparison U)
    (msgAndArgs : list (iface U)) (env : Env U) (u : U) :
  succeeds c u = true ->
  exists tr,
    Assert (testingT b) c msgAndArgs env u = mkRun (Returns tt) tr (calledOnce c u)
    /\ forallb isHelper tr = true.
Proof.
  intros Hs.
  destruct (@assert_on_success U b (FailNow (testingT b)) filterExprArgsFromComparison
              c msgAndArgs env u Hs) as (tr & Hrun & Htr).
  exists (helperCalls b ++ tr). split.
  - entry_run. rewrite Hrun. unfold ret. go_step. rewrite app_nil_r. reflexivity.
  - rewrite forallb_app, Htr. destruct b; reflexivity.
Qed.

(** ** Comparisons that fail *)

(** The run of [assert] on a comparison that fails: the closure runs once,
    the message is logged, then the failer runs, and [assert] returns false
    if the failer comes back. *)
Lemma assert_on_failure (U : Type) (b : bool) (failer : M U unit)
    (argsFilter : astExprListFilter) (c : BoolOrComparison U)
    (msgAndArgs : list (iface U)) (env : Env U) (u : U) :
  fails c u = true ->
  let rf := failer env (calledOnce c u) in
  assert (testingT b) failer argsFilter c msgAndArgs env u
    = mkRun (afterFailer (outcome rf))
        (beforeFailureLog b env c ++ EvLog (failureText env c u msgAndArgs) :: trace rf)
        (final rf).
Proof.
  intros Hf rf. subst rf. unfold fails in Hf.
  destruct c as [check | f | f | f | ty txt]; cbn in Hf; try discriminate.
  - destruct check; try discriminate.
    assert_run. unfold beforeFailureLog, failureText, calledOnce.
    norm_trace. reflexivity.
  - apply negb_true_iff in Hf.
    assert_run. unfold beforeFailureLog, failureText, calledOnce.
    rewrite Hf. go_step. norm_trace. reflexivity.
  - assert_run. unfold beforeFailureLog, failureText, calledOnce.
    destruct (fst (f u)); try discriminate. go_step. reflexivity.
  - assert_run. unfold beforeFailureLog, failureText, calledOnce.
    destruct (fst (f u)); try discriminate. go_step. reflexivity.
Qed.

Lemma Check_on_failure (U : Type) (b : bool) (c : BoolOrComparison U)
    (msgAndArgs : list (iface U)) (env : Env U) (u : U) :
  fails c u = true ->
  Check (testingT b) c msgAndArgs env u
    = mkRun (Returns false)
        (helperCalls b ++ beforeFailureLog b env c
           ++ [EvLog (failureText env c u msgAndArgs); EvFail])
        (calledOnce c u).
Proof.
  intros Hf. entry_run.
  rewrite assert_on_failure by exact Hf.
  reflexivity.
Qed.

Lemma Assert_on_failure (U : Type) (b : bool) (c : BoolOrComparison U)
    (msgAndArgs : list (iface U)) (env : Env U) (u : U) :
  fails c u = true ->
  Assert (testingT b) c msgAndArgs env u
    = mkRun Goexit
        (helperCalls b ++ beforeFailureLog b env c
           ++ [EvLog (failureText env c u msgAndArgs); EvFailNow])
        (calledOnce c u).
Proof.
  intros Hf. entry_run.
  rewrite assert_on_failure by exact Hf.
  reflexivity.
Qed.

(** ** Unrecognised comparison values *)

(** C4: a comparison whose dynamic type is none of bool, func() (bool, string),
    cmp.Comparison and func() cmp.Result makes [assert] panic with a message
    that names the type, whatever the failer: the failer is not run, the
    context sees no Log, Fail or FailNow, and the call does not return.
    [Assert] and [Check] panic in the same way. *)
Theorem assert_panics_on_other_types (U : Type) (b : bool) (failer : M U unit)
    (argsFilter : astExprListFilter) (typeName text : string)
    (msgAndArgs : list (iface U)) (env : Env U) (u : U) :
  let value := ("comparison arg must be bool or Comparison, not " ++ typeName)%string in
  let r := assert (testingT b) failer argsFilter (GoValue typeName text) msgAndArgs env u in
  r = mkRun (Panics value) (helperCalls b) u
  /\ calls isLog (trace r) = 0
  /\ calls isFail (trace r) = 0
  /\ calls isFailNow (trace r) = 0
  /\ Assert (testingT b) (GoValue typeName text) msgAndArgs env u
     = mkRun (Panics value) (helperCalls b ++ helperCalls b) u
  /\ Check (testingT b) (GoValue typeName text) msgAndArgs env u
     = mkRun (Panics value) (helperCalls b ++ helperCalls b) u.
Proof.
  intros value r.
  assert (Hr : r = mkRun (Panics value) (helperCalls b) u)
    by (destruct b; reflexivity).
  rewrite Hr; cbn [trace].
  repeat split; try (apply calls_helperCalls; reflexivity);
    destruct b; reflexivity.
Qed.

(** ** What the dispatch returns *)

(** C1: on a comparison of a recognised type, [assert] returns true exactly
    when the comparison succeeded, whatever the failer; it returns false on a
    failed comparison as soon as the failer comes back, and so [Check]
    returns whether the comparison succeeded. *)
Theorem assert_returns_whether_comparison_succeeded (U : Type) (b : bool)
    (failer : M U unit) (argsFilter : astExprListFilter) (c : BoolOrComparison U)
    (msgAndArgs : list (iface U)) (env : Env U) (u : U) :
  recognized c = true ->
  let r := assert (testingT b) failer argsFilter c msgAndArgs env u in
  (outcome r = Returns true <-> succeeds c u = true)
  /\ (comesBack failer -> outcome r = Returns (succeeds c u))
  /\ outcome (Check (testingT b) c msgAndArgs env u) = Returns (succeeds c u).
Proof.
  intros Hrec r. subst r.
  destruct (succeeds c u) eqn:Hs.
  - destruct (@assert_on_success U b failer argsFilter c msgAndArgs env u Hs)
      as (tr & Hrun & _).
    destruct (Check_on_success b c msgAndArgs env u Hs) as (tr' & Hrun' & _).
    rewrite Hrun, Hrun'. cbn. repeat split; reflexivity.
  - assert (Hf : fails c u = true) by (unfold fails; rewrite Hrec, Hs; reflexivity).
    rewrite assert_on_failure by exact Hf.
    rewrite Check_on_failure by exact Hf. cbn.
    repeat split.
    + destruct (outcome (failer env (calledOnce c u))); cbn; discriminate.
    + discriminate.
    + intros Hback. rewrite (Hback env (calledOnce c u)). reflexivity.
Qed.

Lemma assert_returns_whether_comparison_succeeded_witness :
  recognized (GoLegacyFunc (countingLegacy false "boom")) = true
  /\ outcome (Check (testingT true) (GoLegacyFunc (countingLegacy false "boom")) []
                (sampleEnv ("ok"%string, None)) 0) = Returns false.
Proof.
  split; [reflexivity|].
  apply (@assert_returns_whether_comparison_succeeded nat true
           (Fail (testingT true)) filterExprArgsFromComparison
           (GoLegacyFunc (countingLegacy false "boom")) []
           (sampleEnv ("ok"%string, None)) 0).
  reflexivity.
Defined.

(** ** Comparisons that succeed: claims *)

(** C9: a comparison that succeeds makes [assert] return true without running
    the failer; the trace holds [Helper] calls only, so there is no Log, Fail,
    FailNow and no source recovery.  The same holds of [Check] and [Assert]. *)
Theorem success_leaves_the_context_alone (U : Type) (b : bool)
    (failer : M U unit) (argsFilter : astExprListFilter) (c : BoolOrComparison U)
    (msgAndArgs : list (iface U)) (env : Env U) (u : U) :
  succeeds c u = true ->
  let r := assert (testingT b) failer argsFilter c msgAndArgs env u in
  let rc := Check (testingT b) c msgAndArgs env u in
  let ra := Assert (testingT b) c msgAndArgs env u in
  (outcome r = Returns true
   /\ forallb isHelper (trace r) = true
   /\ calls isLog (trace r) = 0 /\ calls isFail (trace r) = 0
   /\ calls isFailNow (trace r) = 0 /\ calls isSource (trace r) = 0)
  /\ (outcome rc = Returns true
   /\ forallb isHelper (trace rc) = true
   /\ calls isLog (trace rc) = 0 /\ calls isFail (trace rc) = 0
   /\ calls isFailNow (trace rc) = 0 /\ calls isSource (trace rc) = 0)
  /\ (outcome ra = Returns tt
   /\ forallb isHelper (trace ra) = true
   /\ calls isLog (trace ra) = 0 /\ calls isFail (trace ra) = 0
   /\ calls isFailNow (trace ra) = 0 /\ calls isSource (trace ra) = 0).
Proof.
  intros Hs r rc ra. subst r rc ra.
  destruct (@assert_on_success U b failer argsFilter c msgAndArgs env u Hs)
    as (tr & Hrun & Htr).
  destruct (Check_on_success b c msgAndArgs env u Hs) as (trc & Hrunc & Htrc).
  destruct (Assert_on_success b c msgAndArgs env u Hs) as (tra & Hruna & Htra).
  rewrite Hrun, Hrunc, Hruna. cbn [outcome trace].
  repeat split; try assumption;
    apply calls_only_helpers; (assumption || reflexivity).
Qed.

Lemma success_leaves_the_context_alone_witness :
  succeeds (GoComparison (countingComparison Success)) 0 = true
  /\ outcome (Check (testingT true) (GoComparison (countingComparison Success)) []
                (sampleEnv ("ok"%string, None)) 0) = Returns true
  /\ calls isLog (trace (Check (testingT true)
                           (GoComparison (countingComparison Success)) []
                           (sampleEnv ("ok"%string, None)) 0)) = 0.
Proof.
  split; [reflexivity|].
  destruct (@success_leaves_the_context_alone nat true (Fail (testingT true))
              filterExprArgsFromComparison
              (GoComparison (countingComparison Success)) []
              (sampleEnv ("ok"%string, None)) 0 eq_refl)
    as (_ & (Hout & _ & Hlog & _) & _).
  split; [exact Hout | exact Hlog].
Defined.

(** ** A bool comparison that is false *)

(** C2: on a false bool, [assert] calls the source recovery once, with stack
    index 3 and argument position 1, and logs "assertion failed: " followed by
    the recovered text and " is false", merged with the extra message parts,
    before it runs the failer.  When the recovery finds [total != 10] and
    there is no extra part, [Assert] logs "assertion failed: total != 10 is
    false", calls FailNow and does not return. *)
Theorem false_bool_logs_the_recovered_expression (U : Type) (b : bool)
    (failer : M U unit) (argsFilter : astExprListFilter)
    (msgAndArgs : list (iface U)) (env : Env U) (u : U) :
  let found := callExprArg env 3 1 in
  let text :=
    format_WithCustomMessage env
      (("assertion failed: " ++ fst found) ++ " is false")%string msgAndArgs in
  trace (assert (testingT b) failer argsFilter (GoBool false) msgAndArgs env u)
    = helperCalls b ++ EvSource 3 1 :: recoveryErrorLog (snd found)
        ++ EvLog text :: trace (failer env u)
  /\ filter isSource (trace (Assert (testingT b) (GoBool false) msgAndArgs env u))
     = [EvSource 3 1]
  /\ filter isSource (trace (Check (testingT b) (GoBool false) msgAndArgs env u))
     = [EvSource 3 1]
  /\ In (EvLog text) (trace (Assert (testingT b) (GoBool false) msgAndArgs env u))
  /\ In (EvLog text) (trace (Check (testingT b) (GoBool false) msgAndArgs env u))
  /\ (found = ("total != 10"%string, None) ->
      Assert (testingT b) (GoBool false) [] env u
      = mkRun Goexit
          (helperCalls b ++ helperCalls b
             ++ [EvSource 3 1; EvLog "assertion failed: total != 10 is false";
                 EvFailNow])
          u).
Proof.
  intros found text. subst found text.
  assert (Hf : fails (GoBool false) u = true) by reflexivity.
  rewrite assert_on_failure by exact Hf.
  assert (HA := Assert_on_failure b (GoBool false) msgAndArgs env u Hf).
  assert (HA0 := Assert_on_failure b (GoBool false) [] env u Hf).
  assert (HC := Check_on_failure b (GoBool false) msgAndArgs env u Hf).
  rewrite HA, HC. cbn [trace beforeFailureLog failureText calledOnce].
  unfold failureMessage in *.
  repeat split.
  - rewrite <- app_assoc. reflexivity.
  - destruct b; destruct (snd (callExprArg env 3 1)); reflexivity.
  - destruct b; destruct (snd (callExprArg env 3 1)); reflexivity.
  - destruct b; destruct (snd (callExprArg env 3 1)); cbn; auto 10.
  - destruct b; destruct (snd (callExprArg env 3 1)); cbn; auto 10.
  - intros Hfound. rewrite HA0.
    cbn [beforeFailureLog failureText calledOnce]. rewrite Hfound.
    destruct b; reflexivity.
Qed.

Lemma false_bool_logs_the_recovered_expression_witness :
  callExprArg (sampleEnv ("total != 10"%string, None)) 3 1
    = ("total != 10"%string, None)
  /\ Assert (testingT true) (GoBool false) []
       (sampleEnv ("total != 10"%string, None)) 0
     = mkRun Goexit
         [EvHelper; EvHelper; EvSource 3 1;
          EvLog "assertion failed: total != 10 is false"; EvFailNow]
         0.
Proof.
  split; [reflexivity|].
  apply (@false_bool_logs_the_recovered_expression nat true
           (FailNow (testingT true)) filterExprArgsFromComparison []
           (sampleEnv ("total != 10"%string, None)) 0).
  reflexivity.
Defined.

(** C6: when the source recovery returns an error on a false bool, the error
    stays inside: [Check] still returns false and [Assert] still ends by
    FailNow, with no panic; the text of the error is logged, then the failure
    message, then the escalation is called; and the failure message is not
    empty. *)
Theorem recovery_error_is_logged_and_absorbed (U : Type) (b : bool)
    (msgAndArgs : list (iface U)) (env : Env U) (u : U) (source e : string) :
  callExprArg env 3 1 = (source, Some e) ->
  let text :=
    format_WithCustomMessage env
      (("assertion failed: " ++ source) ++ " is false")%string msgAndArgs in
  Check (testingT b) (GoBool false) msgAndArgs env u
    = mkRun (Returns false)
        (helperCalls b ++ helperCalls b
           ++ [EvSource 3 1; EvLog e; EvLog text; EvFail]) u
  /\ Assert (testingT b) (GoBool false) msgAndArgs env u
    = mkRun Goexit
        (helperCalls b ++ helperCalls b
           ++ [EvSource 3 1; EvLog e; EvLog text; EvFailNow]) u
  /\ 27 <= String.length text.
Proof.
  intros Hfound text. subst text.
  assert (Hf : fails (GoBool false) u = true) by reflexivity.
  rewrite (Check_on_failure b (GoBool false) msgAndArgs env u Hf).
  rewrite (Assert_on_failure b (GoBool false) msgAndArgs env u Hf).
  cbn [beforeFailureLog failureText calledOnce]. rewrite Hfound.
  repeat split.
  - destruct b; reflexivity.
  - destruct b; reflexivity.
  - unfold format_WithCustomMessage, failureMessage.
    destruct msgAndArgs; rewrite ?string_length_append; cbn [String.length]; lia.
Qed.

Lemma recovery_error_is_logged_and_absorbed_witness :
  callExprArg (sampleEnv (EmptyString, Some "open x_test.go: no such file"%string)) 3 1
    = (EmptyString, Some "open x_test.go: no such file"%string)
  /\ Check (testingT false) (GoBool false) []
       (sampleEnv (EmptyString, Some "open x_test.go: no such file"%string)) 0
     = mkRun (Returns false)
         [EvSource 3 1; EvLog "open x_test.go: no such file";
          EvLog "assertion failed:  is false"; EvFail]
         0.
Proof.
  split; [reflexivity|].
  apply (@recovery_error_is_logged_and_absorbed nat false []
           (sampleEnv (EmptyString, Some "open x_test.go: no such file"%string)) 0
           EmptyString "open x_test.go: no such file"%string).
  reflexivity.
Defined.

(** C7, as the claim has it, fails: with a recovery that returns an error,
    a false bool makes [Check] call Log twice, not once. *)
Lemma log_called_twice_when_recovery_fails :
  calls isLog
    (trace (Check (testingT false) (GoBool false) []
              (sampleEnv (EmptyString, Some "open x_test.go: no such file"%string)) 0))
    = 2
  /\ ~ calls isLog
       (trace (Check (testingT false) (GoBool false) []
                 (sampleEnv (EmptyString, Some "open x_test.go: no such file"%string)) 0))
       = 1.
Proof.
  split; [reflexivity | discriminate].
Qed.

(** C7, amended: on a false bool, Log is called once when the source recovery
    succeeds and twice when it returns an error: first with the text of the
    error, then with the failure message; these are all the Log calls, in
    that order.  The escalation is called exactly once, FailNow and not Fail
    under [Assert], Fail and not FailNow under [Check]. *)
Theorem false_bool_calls_of_log_and_escalation (U : Type) (b : bool)
    (msgAndArgs : list (iface U)) (env : Env U) (u : U) :
  let found := callExprArg env 3 1 in
  let text :=
    format_WithCustomMessage env
      (("assertion failed: " ++ fst found) ++ " is false")%string msgAndArgs in
  let logs :=
    match snd found with
    | None => 1
    | Some _ => 2
    end in
  let ra := Assert (testingT b) (GoBool false) msgAndArgs env u in
  let rc := Check (testingT b) (GoBool false) msgAndArgs env u in
  (calls isLog (trace ra) = logs
   /\ filter isLog (trace ra) = recoveryErrorLog (snd found) ++ [EvLog text]
   /\ calls isFailNow (trace ra) = 1 /\ calls isFail (trace ra) = 0)
  /\ (calls isLog (trace rc) = logs
   /\ filter isLog (trace rc) = recoveryErrorLog (snd found) ++ [EvLog text]
   /\ calls isFail (trace rc) = 1 /\ calls isFailNow (trace rc) = 0).
Proof.
  intros found text logs ra rc. subst found text logs ra rc.
  assert (Hf : fails (GoBool false) u = true) by reflexivity.
  rewrite (Check_on_failure b (GoBool false) msgAndArgs env u Hf).
  rewrite (Assert_on_failure b (GoBool false) msgAndArgs env u Hf).
  cbn [trace beforeFailureLog failureText]. unfold failureMessage.
  destruct (snd (callExprArg env 3 1)); destruct b; repeat apply conj;
    reflexivity.
Qed.

(** ** Legacy comparisons *)

(** C5: a legacy comparison [f] is called exactly once: the captured state
    after [runCompareFunc], [Check] or [Assert] is the state after one call.
    When [f] returns (false, message), the one thing logged is "assertion
    failed: " followed by that message, merged with the extra parts; when it
    returns success, [Check] returns true and nothing is logged.  The source
    recovery is not called in either case. *)
Theorem legacy_comparison_runs_once (U : Type) (b : bool)
    (f : U -> (bool * string) * U) (msgAndArgs : list (iface U))
    (env : Env U) (u : U) :
  let success := fst (fst (f u)) in
  let text :=
    format_WithCustomMessage env ("assertion failed: " ++ snd (fst (f u)))%string
      msgAndArgs in
  let logged := if success then [] else [EvLog text] in
  let rc := Check (testingT b) (GoLegacyFunc f) msgAndArgs env u in
  let ra := Assert (testingT b) (GoLegacyFunc f) msgAndArgs env u in
  runCompareFunc (testingT b) f msgAndArgs env u
    = mkRun (Returns success) (helperCalls b ++ logged) (snd (f u))
  /\ (final rc = snd (f u) /\ outcome rc = Returns success
      /\ filter isLog (trace rc) = logged /\ calls isSource (trace rc) = 0)
  /\ (final ra = snd (f u)
      /\ filter isLog (trace ra) = logged /\ calls isSource (trace ra) = 0).
Proof.
  intros success text logged rc ra. subst success text logged rc ra.
  split.
  - apply runCompareFunc_run.
  - destruct (fst (fst (f u))) eqn:Hs.
    + assert (Hsucc : succeeds (GoLegacyFunc f) u = true) by exact Hs.
      destruct (Check_on_success b _ msgAndArgs env u Hsucc) as (trc & Hrc & Htrc).
      destruct (Assert_on_success b _ msgAndArgs env u Hsucc) as (tra & Hra & Htra).
      rewrite Hrc, Hra. cbn [outcome trace final calledOnce].
      assert (Hnone : forall tr, forallb isHelper tr = true -> filter isLog tr = []).
      { intros tr Htr. apply length_zero_iff_nil.
        apply (calls_only_helpers isLog tr Htr). reflexivity. }
      repeat split; auto; apply calls_only_helpers; auto.
    + assert (Hf : fails (GoLegacyFunc f) u = true)
        by (unfold fails; cbn; rewrite Hs; reflexivity).
      rewrite (Check_on_failure b _ msgAndArgs env u Hf).
      rewrite (Assert_on_failure b _ msgAndArgs env u Hf).
      cbn [outcome trace final calledOnce beforeFailureLog failureText].
      unfold failureMessage.
      repeat split; destruct b; reflexivity.
Qed.

Lemma legacy_comparison_runs_once_witness :
  final (Check (testingT true) (GoLegacyFunc (countingLegacy false "boom")) []
           (sampleEnv ("ok"%string, None)) 0) = 1
  /\ filter isLog
       (trace (Check (testingT true) (GoLegacyFunc (countingLegacy false "boom")) []
                 (sampleEnv ("ok"%string, None)) 0))
     = [EvLog "assertion failed: boom"].
Proof.
  pose proof (legacy_comparison_runs_once true (countingLegacy false "boom") []
                (sampleEnv ("ok"%string, None)) 0) as H.
  cbv zeta in H. destruct H as (_ & (Hfinal & _ & Hlog & _) & _).
  split; [exact Hfinal | exact Hlog].
Defined.

(** ** Escalation *)

(** C8: on a failed comparison the failure message is logged before the
    failer runs: the trace of [assert] is a prefix without Fail or FailNow,
    then the Log of the failure message of that comparison, then whatever the
    failer does; under [Assert] and [Check] the escalation is the last event
    and the Log of the failure message comes right before it. *)
Theorem log_precedes_escalation (U : Type) (b : bool) (failer : M U unit)
    (argsFilter : astExprListFilter) (c : BoolOrComparison U)
    (msgAndArgs : list (iface U)) (env : Env U) (u : U) :
  fails c u = true ->
  let message := failureText env c u msgAndArgs in
  exists pre,
    (calls isFail pre = 0 /\ calls isFailNow pre = 0)
    /\ trace (assert (testingT b) failer argsFilter c msgAndArgs env u)
       = pre ++ EvLog message :: trace (failer env (calledOnce c u))
    /\ trace (Assert (testingT b) c msgAndArgs env u)
       = helperCalls b ++ pre ++ [EvLog message; EvFailNow]
    /\ trace (Check (testingT b) c msgAndArgs env u)
       = helperCalls b ++ pre ++ [EvLog message; EvFail].
Proof.
  intros Hf message. subst message.
  exists (beforeFailureLog b env c).
  rewrite assert_on_failure by exact Hf.
  rewrite (Check_on_failure b c msgAndArgs env u Hf).
  rewrite (Assert_on_failure b c msgAndArgs env u Hf).
  cbn [trace]. repeat split;
    unfold beforeFailureLog;
    destruct c; destruct b; try destruct (snd (callExprArg env 3 1));
    reflexivity.
Qed.

Lemma log_precedes_escalation_witness :
  fails (GoComparison (countingComparison (Failure "1 != 2"))) 0 = true
  /\ exists pre,
       (calls isFail pre = 0 /\ calls isFailNow pre = 0)
       /\ trace (assert (testingT true) (Fail (testingT true))
                   filterExprArgsFromComparison
                   (GoComparison (countingComparison (Failure "1 != 2"))) []
                   (sampleEnv ("ok"%string, None)) 0)
          = pre ++ EvLog "assertion failed: 1 != 2"
              :: trace (Fail (testingT true) (sampleEnv ("ok"%string, None))
                          (calledOnce (GoComparison (countingComparison (Failure "1 != 2"))) 0))
       /\ trace (Assert (testingT true)
                   (GoComparison (countingComparison (Failure "1 != 2"))) []
                   (sampleEnv ("ok"%string, None)) 0)
          = helperCalls true ++ pre ++ [EvLog "assertion failed: 1 != 2"; EvFailNow]
       /\ trace (Check (testingT true)
                   (GoComparison (countingComparison (Failure "1 != 2"))) []
                   (sampleEnv ("ok"%string, None)) 0)
          = helperCalls true ++ pre ++ [EvLog "assertion failed: 1 != 2"; EvFail].
Proof.
  split; [reflexivity|].
  apply (@log_precedes_escalation nat true (Fail (testingT true))
           filterExprArgsFromComparison
           (GoComparison (countingComparison (Failure "1 != 2"))) []
           (sampleEnv ("ok"%string, None)) 0).
  reflexivity.
Defined.

(** C3: on a failed comparison [Assert] calls FailNow once and never Fail, and
    ends there: whatever statement follows the call is not run.  [Check] calls
    Fail once and never FailNow, returns false, and the statements that follow
    run from the state it leaves. *)
Theorem Assert_halts_and_Check_continues (U : Type) (b : bool)
    (c : BoolOrComparison U) (msgAndArgs : list (iface U)) (env : Env U) (u : U) :
  fails c u = true ->
  let ra := Assert (testingT b) c msgAndArgs env u in
  let rc := Check (testingT b) c msgAndArgs env u in
  (outcome ra = Goexit
   /\ calls isFailNow (trace ra) = 1 /\ calls isFail (trace ra) = 0
   /\ forall (B : Type) (rest : unit -> M U B),
        bind (Assert (testingT b) c msgAndArgs) rest env u
        = mkRun Goexit (trace ra) (final ra))
  /\ (outcome rc = Returns false
   /\ calls isFail (trace rc) = 1 /\ calls isFailNow (trace rc) = 0
   /\ forall (B : Type) (rest : bool -> M U B),
        bind (Check (testingT b) c msgAndArgs) rest env u
        = let rk := rest false env (final rc) in
          mkRun (outcome rk) (trace rc ++ trace rk) (final rk)).
Proof.
  intros Hf ra rc. subst ra rc.
  unfold bind at 1 2.
  rewrite (Check_on_failure b c msgAndArgs env u Hf).
  rewrite (Assert_on_failure b c msgAndArgs env u Hf).
  cbn [outcome trace final].
  repeat split;
    unfold beforeFailureLog;
    destruct c; destruct b; try destruct (snd (callExprArg env 3 1));
    reflexivity.
Qed.

Lemma Assert_halts_and_Check_continues_witness :
  fails (GoBool false) 0 = true
  /\ bind (Assert (testingT true) (GoBool false) [])
       (fun _ => Log (testingT true) "after the call")
       (sampleEnv ("ok"%string, None)) 0
     = mkRun Goexit
         (trace (Assert (testingT true) (GoBool false) []
                   (sampleEnv ("ok"%string, None)) 0))
         (final (Assert (testingT true) (GoBool false) []
                   (sampleEnv ("ok"%string, None)) 0)).
Proof.
  split; [reflexivity|].
  apply (@Assert_halts_and_Check_continues nat true (GoBool false) []
           (sampleEnv ("ok"%string, None)) 0 eq_refl).
Defined.

(** ** The Helper method *)

(** The entry points and the helpers [assert] and [runCompareFunc] begin with
    the Helper call when the context has the method. *)
Lemma Helper_is_called_first (U : Type) (failer : M U unit)
    (argsFilter : astExprListFilter) (c : BoolOrComparison U)
    (f : U -> (bool * string) * U) (x y : iface U) (err : error)
    (msgAndArgs : list (iface U)) (env : Env U) (u : U) :
  hd_error (trace (Assert (testingT true) c msgAndArgs env u)) = Some EvHelper
  /\ hd_error (trace (Check (testingT true) c msgAndArgs env u)) = Some EvHelper
  /\ hd_error (trace (NilError (testingT true) err msgAndArgs env u)) = Some EvHelper
  /\ hd_error (trace (Equal (testingT true) x y msgAndArgs env u)) = Some EvHelper
  /\ hd_error (trace (assert (testingT true) failer argsFilter c msgAndArgs env u))
     = Some EvHelper
  /\ hd_error (trace (runCompareFunc (testingT true) f msgAndArgs env u))
     = Some EvHelper.
Proof.
  repeat apply conj;
    unfold Assert, Check, NilError, Equal, runCompareFunc, assert;
    unfold bind at 1; rewrite markHelper_testingT; go_step; reflexivity.
Qed.

(** A context without the method Helper is accepted: [Assert] and [Check] end
    in the same way and leave the same state as on a context that has it, and
    their trace is the same once the Helper calls are taken out. *)
Lemma minimal_context_is_accepted (U : Type) (c : BoolOrComparison U)
    (msgAndArgs : list (iface U)) (env : Env U) (u : U) :
  let ra := Assert (testingT true) c msgAndArgs env u in
  let rc := Check (testingT true) c msgAndArgs env u in
  Assert (testingT false) c msgAndArgs env u
    = mkRun (outcome ra) (withoutHelper (trace ra)) (final ra)
  /\ Check (testingT false) c msgAndArgs env u
    = mkRun (outcome rc) (withoutHelper (trace rc)) (final rc).
Proof.
  intros ra rc. subst ra rc.
  destruct (recognized c) eqn:Hrec.
  - destruct (succeeds c u) eqn:Hs.
    + destruct c as [[|] | f | f | f | ty txt]; cbn in Hs; try discriminate;
        split; entry_run; assert_run; entry_run; assert_run;
        rewrite ?Hs; try (destruct (fst (f u)); try discriminate);
        unfold ret; go_step; reflexivity.
    + assert (Hf : fails c u = true) by (unfold fails; rewrite Hrec, Hs; reflexivity).
      rewrite !(Check_on_failure _ c msgAndArgs env u Hf).
      rewrite !(Assert_on_failure _ c msgAndArgs env u Hf).
      go_step.
      split; unfold beforeFailureLog; destruct c;
        try destruct (snd (callExprArg env 3 1)); reflexivity.
  - destruct c; try discriminate. split; reflexivity.
Qed.

(** C10: [logFailureFromBool] never asks whether the context has the method
    Helper.  On a context that has it, its first call is the source recovery
    and its calls on the context are Log calls only, whereas [runCompareFunc],
    which logs in the same way, calls Helper first. *)
Theorem logFailureFromBool_does_not_call_Helper (U : Type)
    (f : U -> (bool * string) * U) (msgAndArgs : list (iface U))
    (env : Env U) (u : U) :
  let found := callExprArg env 3 1 in
  let text :=
    format_WithCustomMessage env
      (("assertion failed: " ++ fst found) ++ " is false")%string msgAndArgs in
  logFailureFromBool (testingT true) msgAndArgs env u
    = mkRun (Returns tt)
        (EvSource 3 1 :: recoveryErrorLog (snd found) ++ [EvLog text]) u
  /\ calls isHelper (trace (logFailureFromBool (testingT true) msgAndArgs env u)) = 0
  /\ hd_error (trace (runCompareFunc (testingT true) f msgAndArgs env u))
     = Some EvHelper.
Proof.
  intros found text. subst found text.
  rewrite logFailureFromBool_run. go_step.
  repeat apply conj.
  - reflexivity.
  - destruct (snd (callExprArg env 3 1)); reflexivity.
  - rewrite runCompareFunc_run. reflexivity.
Qed.

(** ** The failer, on any test context *)

(** X1: whatever the test context and the comparison, [assert] runs its
    failer at most once and as the last thing it does: its run is the run
    with a failer that does nothing, followed by the failer exactly when that
    run returns false; it then returns false if the failer comes back and
    ends as the failer ends otherwise. *)
Theorem assert_runs_failer_last (U : Type) (t : TestingT U) (failer : M U unit)
    (argsFilter : astExprListFilter) (c : BoolOrComparison U)
    (msgAndArgs : list (iface U)) (env : Env U) (u : U) :
  let pre := assert t (ret tt) argsFilter c msgAndArgs env u in
  assert t failer argsFilter c msgAndArgs env u
    = match outcome pre with
      | Returns false =>
          let rf := failer env (final pre) in
          mkRun (afterFailer (outcome rf)) (trace pre ++ trace rf) (final rf)
      | _ => pre
      end.
Proof.
  intros pre. subst pre.
  destruct c as [[|] | f | f | f | ty txt];
    unfold assert, afterSwitch, bind, ret;
    destruct (markHelper t env u) as [[[]| |v0] tr0 u0]; go_step;
    try reflexivity.
  - destruct (logFailureFromBool t msgAndArgs env u0) as [[[]| |v1] tr1 u1];
      go_step; try reflexivity.
    destruct (failer env u1) as [[[]| |v2] tr2 u2]; go_step;
      rewrite ?app_nil_r, <- ?app_assoc; reflexivity.
  - destruct (runCompareFunc t f msgAndArgs env u0) as [[[|]| |v1] tr1 u1];
      go_step; try reflexivity.
    destruct (failer env u1) as [[[]| |v2] tr2 u2]; go_step;
      rewrite ?app_nil_r, <- ?app_assoc; reflexivity.
  - destruct (runComparison t argsFilter f msgAndArgs env u0)
      as [[[|]| |v1] tr1 u1]; go_step; try reflexivity.
    destruct (failer env u1) as [[[]| |v2] tr2 u2]; go_step;
      rewrite ?app_nil_r, <- ?app_assoc; reflexivity.
  - destruct (runComparison t argsFilter f msgAndArgs env u0)
      as [[[|]| |v1] tr1 u1]; go_step; try reflexivity.
    destruct (failer env u1) as [[[]| |v2] tr2 u2]; go_step;
      rewrite ?app_nil_r, <- ?app_assoc; reflexivity.
Qed.

(** ** The convenience entry points *)




(** ** Assert and Check side by side *)

Lemma map_swapEscalation_helpers (tr : list Event) :
  forallb isHelper tr = true -> map swapEscalation tr = tr.
Proof.
  induction tr as [|e tr IH]; simpl; intros Hall; [reflexivity|].
  apply andb_true_iff in Hall as [He Htr].
  destruct e; try discriminate. now rewrite IH.
Qed.

(** On a comparison that succeeds, [Check] and [Assert] make the same calls,
    all of them Helper calls, and leave the same state. *)
Lemma entry_points_on_success (U : Type) (b : bool) (c : BoolOrComparison U)
    (msgAndArgs : list (iface U)) (env : Env U) (u : U) :
  succeeds c u = true ->
  exists tr,
    forallb isHelper tr = true
    /\ Check (testingT b) c msgAndArgs env u = mkRun (Returns true) tr (calledOnce c u)
    /\ Assert (testingT b) c msgAndArgs env u = mkRun (Returns tt) tr (calledOnce c u).
Proof.
  intros Hs.
  destruct c as [[|] | f | f | f | ty txt]; cbn in Hs; try discriminate.
  - exists (helperCalls b ++ helperCalls b).
    repeat apply conj; destruct b; reflexivity.
  - exists (helperCalls b ++ helperCalls b ++ helperCalls b).
    repeat apply conj; [destruct b; reflexivity| |];
      entry_run; assert_run; rewrite Hs; unfold ret; go_step;
      rewrite ?app_nil_r; reflexivity.
  - exists (helperCalls b ++ helperCalls b).
    repeat apply conj; [destruct b; reflexivity| |];
      entry_run; assert_run; destruct (fst (f u)); try discriminate;
      unfold ret; go_step; rewrite ?app_nil_r; reflexivity.
  - exists (helperCalls b ++ helperCalls b).
    repeat apply conj; [destruct b; reflexivity| |];
      entry_run; assert_run; destruct (fst (f u)); try discriminate;
      unfold ret; go_step; rewrite ?app_nil_r; reflexivity.
Qed.

(** X4: [Assert] and [Check] differ by the escalation and by nothing else:
    on every comparison, the calls of [Check] are those of [Assert] with Fail
    in the place of FailNow, the state they leave is the same, and [Assert]
    returns, halts or panics according as [Check] returns true, returns false
    or panics. *)
Theorem Check_differs_from_Assert_by_escalation (U : Type) (b : bool)
    (c : BoolOrComparison U) (msgAndArgs : list (iface U)) (env : Env U) (u : U) :
  let ra := Assert (testingT b) c msgAndArgs env u in
  let rc := Check (testingT b) c msgAndArgs env u in
  trace rc = map swapEscalation (trace ra)
  /\ final rc = final ra
  /\ outcome ra = asAssert (outcome rc).
Proof.
  intros ra rc. subst ra rc.
  destruct (recognized c) eqn:Hrec.
  - destruct (succeeds c u) eqn:Hs.
    + destruct (entry_points_on_success b c msgAndArgs env u Hs)
        as (tr & Htr & HC & HA).
      rewrite HC, HA. go_step.
      rewrite (map_swapEscalation_helpers tr Htr). repeat split.
    + assert (Hf : fails c u = true) by (unfold fails; rewrite Hrec, Hs; reflexivity).
      rewrite (Check_on_failure b c msgAndArgs env u Hf).
      rewrite (Assert_on_failure b c msgAndArgs env u Hf).
      go_step. repeat split.
      unfold beforeFailureLog; destruct c; destruct b;
        try destruct (snd (callExprArg env 3 1)); reflexivity.
  - destruct c; try discriminate. destruct b; repeat split.
Qed.

(** ** What follows a call *)

(** X6: the statements that follow [Assert] run exactly when the comparison
    succeeded: then they start from the state left by one call of the
    closure, after Helper calls only; otherwise the run is that of [Assert]
    alone. *)
Theorem rest_runs_iff_Assert_succeeded (U B : Type) (b : bool)
    (c : BoolOrComparison U) (msgAndArgs : list (iface U))
    (rest : unit -> M U B) (env : Env U) (u : U) :
  recognized c = true ->
  let ra := Assert (testingT b) c msgAndArgs env u in
  let rk := rest tt env (calledOnce c u) in
  bind (Assert (testingT b) c msgAndArgs) rest env u
    = (if succeeds c u
       then mkRun (outcome rk) (trace ra ++ trace rk) (final rk)
       else mkRun Goexit (trace ra) (final ra))
  /\ (succeeds c u = true -> forallb isHelper (trace ra) = true).
Proof.
  intros Hrec ra rk. subst ra rk. unfold bind at 1.
  destruct (succeeds c u) eqn:Hs.
  - destruct (entry_points_on_success b c msgAndArgs env u Hs)
      as (tr & Htr & _ & HA).
    rewrite HA. go_step. split; [reflexivity | intros _; exact Htr].
  - assert (Hf : fails c u = true) by (unfold fails; rewrite Hrec, Hs; reflexivity).
    rewrite (Assert_on_failure b c msgAndArgs env u Hf). go_step.
    split; [reflexivity | discriminate].
Qed.

Lemma rest_runs_iff_Assert_succeeded_witness :
  recognized (GoLegacyFunc (countingLegacy true "unused")) = true
  /\ bind (Assert (testingT false) (GoLegacyFunc (countingLegacy true "unused")) [])
       (fun _ => Log (testingT false) "next statement")
       (sampleEnv ("ok"%string, None)) 0
     = mkRun (Returns tt) [EvLog "next statement"] 1.
Proof.
  split; [reflexivity|].
  destruct (@rest_runs_iff_Assert_succeeded nat unit false
              (GoLegacyFunc (countingLegacy true "unused")) []
              (fun _ => Log (testingT false) "next statement")
              (sampleEnv ("ok"%string, None)) 0 eq_refl) as [Hrun _].
  rewrite Hrun. reflexivity.
Defined.

(** X7: two [Check]s in a row both run, whatever the first one finds: the
    second starts from the state the first left, the calls of both appear in
    order, and the value returned is that of the second. *)
Theorem Checks_compose (U : Type) (b : bool) (c1 c2 : BoolOrComparison U)
    (args1 args2 : list (iface U)) (env : Env U) (u : U) :
  recognized c1 = true ->
  recognized c2 = true ->
  let r1 := Check (testingT b) c1 args1 env u in
  let r2 := Check (testingT b) c2 args2 env (calledOnce c1 u) in
  bind (Check (testingT b) c1 args1) (fun _ => Check (testingT b) c2 args2) env u
    = mkRun (Returns (succeeds c2 (calledOnce c1 u)))
        (trace r1 ++ trace r2)
        (calledOnce c2 (calledOnce c1 u))
  /\ calls isFail (trace r1 ++ trace r2)
     = (if succeeds c1 u then 0 else 1)
       + (if succeeds c2 (calledOnce c1 u) then 0 else 1).
Proof.
  intros Hrec1 Hrec2 r1 r2. subst r1 r2. unfold bind at 1.
  assert (Hrun : forall c args v, recognized c = true ->
            exists tr,
              Check (testingT b) c args env v
                = mkRun (Returns (succeeds c v)) tr (calledOnce c v)
              /\ calls isFail tr = if succeeds c v then 0 else 1).
  { intros c args v Hrec. destruct (succeeds c v) eqn:Hs.
    - destruct (entry_points_on_success b c args env v Hs) as (tr & Htr & HC & _).
      exists tr. split; [exact HC|]. apply calls_only_helpers; auto.
    - assert (Hf : fails c v = true) by (unfold fails; rewrite Hrec, Hs; reflexivity).
      eexists. split; [apply (Check_on_failure b c args env v Hf)|].
      unfold beforeFailureLog; destruct c; destruct b;
        try destruct (snd (callExprArg env 3 1)); reflexivity. }
  destruct (Hrun c1 args1 u Hrec1) as (tr1 & H1 & Hn1).
  destruct (Hrun c2 args2 (calledOnce c1 u) Hrec2) as (tr2 & H2 & Hn2).
  rewrite H1. go_step. rewrite H2. go_step.
  split; [reflexivity|]. rewrite calls_app, Hn1, Hn2. reflexivity.
Qed.

Lemma Checks_compose_witness :
  recognized (GoLegacyFunc (countingLegacy false "first")) = true
  /\ recognized (@GoBool nat false) = true
  /\ bind (Check (testingT false) (GoLegacyFunc (countingLegacy false "first")) [])
       (fun _ => Check (testingT false) (GoBool false) [])
       (sampleEnv ("x > 0"%string, None)) 0
     = mkRun (Returns false)
         [EvLog "assertion failed: first"; EvFail;
          EvSource 3 1; EvLog "assertion failed: x > 0 is false"; EvFail]
         1.
Proof.
  split; [reflexivity|]. split; [reflexivity|].
  destruct (@Checks_compose nat false
              (GoLegacyFunc (countingLegacy false "first")) (GoBool false) [] []
              (sampleEnv ("x > 0"%string, None)) 0 eq_refl eq_refl) as [Hrun _].
  rewrite Hrun. reflexivity.
Defined.

(** ** Contexts whose FailNow comes back *)

Lemma markHelper_returning (U : Type) (t : TestingT U) :
  wellBehaved t -> returning (markHelper t).
Proof.
  intros (_ & _ & _ & HHelper) env u. unfold markHelper.
  destruct (helperT t) as [Helper|] eqn:Ht.
  - apply (HHelper Helper eq_refl).
  - exists []. reflexivity.
Qed.

Lemma logFailureFromBool_returning (U : Type) (t : TestingT U)
    (msgAndArgs : list (iface U)) :
  wellBehaved t -> returning (logFailureFromBool t msgAndArgs).
Proof.
  intros (_ & _ & HLog & _) env u.
  unfold logFailureFromBool, source_FormattedCallExprArg, bind, ask, emit, ret.
  go_step.
  destruct (callExprArg env 3 1) as [source [e|]]; go_step.
  - destruct (HLog e env u) as [tr1 H1]. rewrite H1. go_step.
    match goal with
    | |- context [Log t ?m env u] => destruct (HLog m env u) as [tr2 H2]
    end.
    rewrite H2. go_step. eexists. reflexivity.
  - match goal with
    | |- context [Log t ?m env u] => destruct (HLog m env u) as [tr2 H2]
    end.
    rewrite H2. go_step. eexists. reflexivity.
Qed.

Lemma runCompareFunc_on_wellBehaved (U : Type) (t : TestingT U)
    (f : U -> (bool * string) * U) (msgAndArgs : list (iface U))
    (env : Env U) (u : U) :
  wellBehaved t ->
  exists tr,
    runCompareFunc t f msgAndArgs env u
      = mkRun (Returns (fst (fst (f u)))) tr (snd (f u)).
Proof.
  intros Ht.
  destruct (markHelper_returning Ht env u) as [tr0 H0].
  destruct Ht as (_ & _ & HLog & _).
  unfold runCompareFunc, bind, call, ask, ret. rewrite H0. go_step.
  destruct (f u) as [[[|] message] u']; cbn [outcome trace final fst snd negb].
  - eexists. reflexivity.
  - match goal with
    | |- context [Log t ?m env u'] => destruct (HLog m env u') as [tr1 H1]
    end.
    rewrite H1. go_step. eexists. reflexivity.
Qed.

Lemma runComparison_on_wellBehaved (U : Type) (t : TestingT U)
    (exprFilter : astExprListFilter) (f : cmp_Comparison U)
    (msgAndArgs : list (iface U)) (env : Env U) (u : U) :
  wellBehaved t ->
  exists tr,
    runComparison t exprFilter f msgAndArgs env u
      = mkRun (Returns (cmp_Result_Success (fst (f u)))) tr (snd (f u)).
Proof.
  intros (_ & _ & HLog & _).
  unfold runComparison, bind, call, ask, ret. go_step.
  destruct (f u) as [[|message] u']; go_step.
  - eexists. reflexivity.
  - match goal with
    | |- context [Log t ?m env u'] => destruct (HLog m env u') as [tr1 H1]
    end.
    rewrite H1. go_step. eexists. reflexivity.
Qed.

Lemma assert_on_wellBehaved (U : Type) (t : TestingT U) (failer : M U unit)
    (argsFilter : astExprListFilter) (c : BoolOrComparison U)
    (msgAndArgs : list (iface U)) (env : Env U) (u : U) :
  wellBehaved t ->
  returning failer ->
  recognized c = true ->
  exists tr,
    assert t failer argsFilter c msgAndArgs env u
      = mkRun (Returns (succeeds c u)) tr (calledOnce c u).
Proof.
  intros Ht Hfailer Hrec.
  destruct (markHelper_returning Ht env u) as [tr0 H0].
  destruct c as [[|] | f | f | f | ty txt]; try discriminate;
    unfold assert, bind; rewrite H0; go_step.
  - eexists. reflexivity.
  - destruct (logFailureFromBool_returning msgAndArgs Ht env u) as [tr1 H1].
    rewrite H1. go_step. rewrite afterSwitch_run.
    destruct (Hfailer env u) as [tr2 H2]. rewrite H2. go_step.
    eexists. reflexivity.
  - destruct (runCompareFunc_on_wellBehaved f msgAndArgs env u Ht) as [tr1 H1].
    rewrite H1. go_step. rewrite afterSwitch_run.
    unfold succeeds, calledOnce. destruct (fst (fst (f u))).
    + eexists. reflexivity.
    + destruct (Hfailer env (snd (f u))) as [tr2 H2]. rewrite H2. go_step.
      eexists. reflexivity.
  - destruct (runComparison_on_wellBehaved argsFilter f msgAndArgs env u Ht)
      as [tr1 H1].
    rewrite H1. go_step. rewrite afterSwitch_run.
    unfold succeeds, calledOnce. destruct (cmp_Result_Success (fst (f u))).
    + eexists. reflexivity.
    + destruct (Hfailer env (snd (f u))) as [tr2 H2]. rewrite H2. go_step.
      eexists. reflexivity.
  - destruct (runComparison_on_wellBehaved argsFilter f msgAndArgs env u Ht)
      as [tr1 H1].
    rewrite H1. go_step. rewrite afterSwitch_run.
    unfold succeeds, calledOnce. destruct (cmp_Result_Success (fst (f u))).
    + eexists. reflexivity.
    + destruct (Hfailer env (snd (f u))) as [tr2 H2]. rewrite H2. go_step.
      eexists. reflexivity.
Qed.

Lemma fakeT_wellBehaved (U : Type) (b : bool) : wellBehaved (@fakeT U b).
Proof.
  repeat split; try (intros; eexists; reflexivity).
  intros Helper HH env u. destruct b; cbn in HH; inversion HH; subst.
  eexists. reflexivity.
Qed.

(** X5: [assert] never stops the caller by itself.  On a test context all of
    whose methods come back (a fake whose FailNow only takes note of the
    call) and a comparison of a recognised type, [Assert] returns to its
    caller and [Check] returns whether the comparison succeeded, also when
    the comparison failed; the closure has been called once. *)
Theorem Assert_returns_when_the_context_does (U : Type) (t : TestingT U)
    (c : BoolOrComparison U) (msgAndArgs : list (iface U)) (env : Env U) (u : U) :
  wellBehaved t ->
  recognized c = true ->
  (exists tr, Check t c msgAndArgs env u
              = mkRun (Returns (succeeds c u)) tr (calledOnce c u))
  /\ (exists tr, Assert t c msgAndArgs env u
                 = mkRun (Returns tt) tr (calledOnce c u)).
Proof.
  intros Ht Hrec.
  destruct (markHelper_returning Ht env u) as [tr0 H0].
  pose proof Ht as (HFailNow & HFail & _ & _).
  destruct (@assert_on_wellBehaved U t (Fail t) filterExprArgsFromComparison c
              msgAndArgs env u Ht HFail Hrec) as [trc Hc].
  destruct (@assert_on_wellBehaved U t (FailNow t) filterExprArgsFromComparison c
              msgAndArgs env u Ht HFailNow Hrec) as [tra Ha].
  split; unfold Check, Assert, bind; rewrite H0; go_step.
  - rewrite Hc. go_step. eexists. reflexivity.
  - rewrite Ha. go_step. eexists. reflexivity.
Qed.

Lemma Assert_returns_when_the_context_does_witness :
  wellBehaved (@fakeT nat true)
  /\ recognized (@GoBool nat false) = true
  /\ exists tr,
       Assert (fakeT true) (GoBool false) [] (sampleEnv ("ok"%string, None)) 0
       = mkRun (Returns tt) tr 0.
Proof.
  split; [apply fakeT_wellBehaved|]. split; [reflexivity|].
  apply (@Assert_returns_when_the_context_does nat (fakeT true) (GoBool false) []
           (sampleEnv ("ok"%string, None)) 0 (fakeT_wellBehaved nat true) eq_refl).
Defined.

(** ** What a call costs and what it marks *)



(** X9: a call marks the test failed exactly when the comparison failed, and
    once only.  On every comparison, [Assert] calls FailNow once if the
    comparison failed and not at all otherwise, and never calls Fail; [Check]
    calls Fail once if the comparison failed and not at all otherwise, and
    never calls FailNow.  A comparison of an unrecognised type counts as
    neither: both calls panic with the message that names the type, and mark
    nothing; on a recognised type [Check] returns whether the comparison
    succeeded and [Assert] returns or halts accordingly. *)
Theorem test_is_marked_failed_iff_comparison_failed (U : Type) (b : bool)
    (c : BoolOrComparison U) (msgAndArgs : list (iface U)) (env : Env U) (u : U) :
  let ra := Assert (testingT b) c msgAndArgs env u in
  let rc := Check (testingT b) c msgAndArgs env u in
  let marks := if fails c u then 1 else 0 in
  calls isFailNow (trace ra) = marks
  /\ calls isFail (trace ra) = 0
  /\ calls isFail (trace rc) = marks
  /\ calls isFailNow (trace rc) = 0
  /\ outcome rc
     = match c with
       | GoValue typeName _ =>
           Panics ("comparison arg must be bool or Comparison, not " ++ typeName)
       | _ => Returns (succeeds c u)
       end
  /\ outcome ra
     = match c with
       | GoValue typeName _ =>
           Panics ("comparison arg must be bool or Comparison, not " ++ typeName)
       | _ => if succeeds c u then Returns tt else Goexit
       end.
Proof.
  intros ra rc marks. subst ra rc marks.
  destruct (fails c u) eqn:Hf.
  - assert (Hs : succeeds c u = false).
    { unfold fails in Hf. apply andb_true_iff in Hf as [_ Hn].
      now apply negb_true_iff in Hn. }
    rewrite (Check_on_failure b c msgAndArgs env u Hf).
    rewrite (Assert_on_failure b c msgAndArgs env u Hf).
    go_step. rewrite Hs. unfold beforeFailureLog.
    repeat apply conj; destruct c; destruct b;
      try destruct (snd (callExprArg env 3 1)); try discriminate; reflexivity.
  - unfold fails in Hf. destruct (recognized c) eqn:Hrec.
    + assert (Hs : succeeds c u = true)
        by (destruct (succeeds c u); [reflexivity | discriminate]).
      destruct (entry_points_on_success b c msgAndArgs env u Hs)
        as (tr & Htr & HC & HA).
      rewrite HC, HA. go_step. rewrite Hs.
      repeat apply conj; try (apply calls_only_helpers; auto; fail);
        destruct c; try discriminate; reflexivity.
    + destruct c; try discriminate.
      repeat apply conj; destruct b; reflexivity.
Qed.
